(** * Scoring engine of the gut-microbiome dashboard (app.py)

    A shallow embedding of the trait table, the nutrient model,
    [absorption_score], [simulate_addition] and the percent-change
    computation of the Simulations page, followed by the properties of
    the specification that concern them.

    Numbers.  Python floats are modelled as exact rationals extended
    with one not-a-number value: rounding, overflow and infinities are
    abstracted away, the behaviour of NaN under arithmetic and
    comparison is kept.  Equality of rational results is [Qeq] ([==]).

    Dictionaries.  A Python dict is an association list in insertion
    order; assignment to an existing key keeps its position, assignment
    to a new key appends.  Dict objects live in a heap and are passed
    by reference where the source mutates them. *)

From Stdlib Require Import List String Ascii Bool Arith QArith Lqa Lia.
Import ListNotations.

Local Open Scope string_scope.

(** ** Exceptions and the error monad *)

Inductive exn : Type :=
| KeyError (key : string)
| TypeError
| ZeroDivisionError.

Inductive res (A : Type) : Type :=
| Ok (a : A)
| Raise (e : exn).
Arguments Ok {A} a.
Arguments Raise {A} e.

Definition rbind {A B : Type} (m : res A) (k : A -> res B) : res B :=
  match m with
  | Ok a => k a
  | Raise e => Raise e
  end.

Declare Scope res_scope.
Delimit Scope res_scope with res.
Notation "x <- m ;; k" := (rbind m (fun x => k))
  (at level 61, m at next level, right associativity) : res_scope.

(** ** Floats *)

Inductive pyfloat : Type :=
| Fin (q : Q)
| NaN.

Definition fadd (a b : pyfloat) : pyfloat :=
  match a, b with
  | Fin x, Fin y => Fin (x + y)
  | _, _ => NaN
  end.

Definition fsub (a b : pyfloat) : pyfloat :=
  match a, b with
  | Fin x, Fin y => Fin (x - y)
  | _, _ => NaN
  end.

Definition fmul (a b : pyfloat) : pyfloat :=
  match a, b with
  | Fin x, Fin y => Fin (x * y)
  | _, _ => NaN
  end.

(** [a / b]: a zero divisor raises, NaN propagates. *)
Definition fdiv (a b : pyfloat) : res pyfloat :=
  match a, b with
  | Fin x, Fin y => if Qeq_bool y 0 then Raise ZeroDivisionError else Ok (Fin (x / y))
  | NaN, Fin y => if Qeq_bool y 0 then Raise ZeroDivisionError else Ok NaN
  | _, NaN => Ok NaN
  end.

(** [a > b]: false as soon as one side is NaN. *)
Definition fgt (a b : pyfloat) : bool :=
  match a, b with
  | Fin x, Fin y => negb (Qle_bool x y)
  | _, _ => false
  end.

(** [a != b]: true as soon as one side is NaN. *)
Definition fne (a b : pyfloat) : bool :=
  match a, b with
  | Fin x, Fin y => negb (Qeq_bool x y)
  | _, _ => true
  end.

(** The builtin [max(a, b)]: the first argument is kept unless the
    second compares strictly greater. *)
Definition pymax (a b : pyfloat) : pyfloat :=
  if fgt b a then b else a.

(** ** Dictionaries *)

Section Assoc.
Context {V : Type}.

Fixpoint lookup (k : string) (d : list (string * V)) : option V :=
  match d with
  | [] => None
  | (k', v) :: rest => if String.eqb k k' then Some v else lookup k rest
  end.

Definition contains (k : string) (d : list (string * V)) : bool :=
  match lookup k d with
  | Some _ => true
  | None => false
  end.

(** [d[k]] *)
Definition getitem (d : list (string * V)) (k : string) : res V :=
  match lookup k d with
  | Some v => Ok v
  | None => Raise (KeyError k)
  end.

(** [d.get(k, default)] *)
Definition get_default (d : list (string * V)) (k : string) (default : V) : V :=
  match lookup k d with
  | Some v => v
  | None => default
  end.

(** [d[k] = v] *)
Fixpoint setitem (d : list (string * V)) (k : string) (v : V) : list (string * V) :=
  match d with
  | [] => [(k, v)]
  | (k', v') :: rest =>
      if String.eqb k k' then (k', v) :: rest else (k', v') :: setitem rest k v
  end.

Definition keys (d : list (string * V)) : list string := map fst d.
Definition values (d : list (string * V)) : list V := map snd d.
End Assoc.

(** An abundance dict: the amount is [None] (Python's None), NaN or a
    number. *)
Definition amount : Type := option pyfloat.
Definition abundance_dict : Type := list (string * amount).

(** ** Genus mapping and traits *)

(** [str.lower()] on ASCII letters. *)
Definition lower_ascii (c : ascii) : ascii :=
  let n := nat_of_ascii c in
  if (65 <=? n)%nat && (n <=? 90)%nat then ascii_of_nat (n + 32) else c.

Fixpoint lower (s : string) : string :=
  match s with
  | EmptyString => EmptyString
  | String c rest => String (lower_ascii c) (lower rest)
  end.

(** [s.split("_")[0]] *)
Fixpoint split_first (s : string) : string :=
  match s with
  | EmptyString => EmptyString
  | String c rest => if Ascii.eqb c "_"%char then EmptyString else String c (split_first rest)
  end.

(** Species identifiers are strings here, so the ["unknown"] branch of
    the source, taken for an index entry that is not a string, is not
    reachable. *)
Definition get_genus (species : string) : string :=
  let genus := split_first species in
  lower genus.

Definition trait_row : Type := list (string * Q).

Definition mk_row (scfa ph barrier vit sid : Q) : trait_row :=
  [("SCFA", scfa); ("pH_reduction", ph); ("Barrier_support", barrier);
   ("Vitamin_Biosynthesis", vit); ("Siderophore", sid)].

Definition genus_traits : list (string * trait_row) :=
  [("lactobacillus",    mk_row 0.9 0.9 0.8 0.6 0.0);
   ("bifidobacterium",  mk_row 0.8 0.7 0.8 0.7 0.0);
   ("faecalibacterium", mk_row 0.95 0.9 0.9 0.4 0.0);
   ("roseburia",        mk_row 0.9 0.8 0.7 0.2 0.0);
   ("bacteroides",      mk_row 0.6 0.3 0.5 0.5 0.1);
   ("prevotella",       mk_row 0.7 0.4 0.6 0.3 0.0);
   ("streptococcus",    mk_row 0.3 0.5 0.3 0.3 0.0);
   ("clostridium",      mk_row 0.8 0.6 0.4 0.2 0.0);
   ("ruminococcus",     mk_row 0.85 0.7 0.6 0.3 0.0);
   ("escherichia",      mk_row 0.1 0.0 0.1 0.1 0.9);
   ("enterobacter",     mk_row 0.1 0.0 0.1 0.1 0.8);
   ("eubacterium",      mk_row 0.5 0.4 0.3 0.2 0.0);
   ("haemophilus",      mk_row 0.2 0.2 0.2 0.2 0.3);
   ("megasphaera",      mk_row 0.7 0.5 0.4 0.1 0.0);
   ("parasutterella",   mk_row 0.3 0.2 0.2 0.2 0.2);
   ("gemmiger",         mk_row 0.6 0.4 0.5 0.3 0.0)].

Definition default_trait : trait_row := mk_row 0.2 0.1 0.1 0.1 0.2.

Definition nutrients : list (string * list (string * Q)) :=
  [("Iron", [("SCFA", 0.4); ("pH_reduction", 0.3); ("Barrier_support", 0.2);
             ("Siderophore", -0.6)]);
   ("Vitamin_B12", [("Vitamin_Biosynthesis", 0.7); ("Barrier_support", 0.2)]);
   ("Folate", [("Vitamin_Biosynthesis", 0.6)]);
   ("Calcium", [("SCFA", 0.5); ("pH_reduction", 0.4)]);
   ("Magnesium", [("SCFA", 0.4)]);
   ("Zinc", [("Barrier_support", 0.4); ("Siderophore", -0.5)])]%Q.

(** ** The species-level trait table and the score *)

Section Engine.
(** [species_list]: the index of the loaded abundance table. *)
Variable species_list : list string.

Definition genus_map : list (string * string) :=
  map (fun sp => (sp, get_genus sp)) species_list.

(** One row per species: the genus prior, or the default. *)
Definition all_traits : list (string * trait_row) :=
  map (fun sp =>
         let row := match lookup sp genus_map with
                    | Some genus => get_default genus_traits genus default_trait
                    | None => default_trait
                    end in
         (sp, row))
      species_list.

(** [traits.index] and [traits.columns] of the data frame built from
    [all_traits]. *)
Definition traits_index : list string := keys all_traits.

Definition traits_columns : list string :=
  match all_traits with
  | [] => []
  | (_, row) :: _ => keys row
  end.

Definition in_list (k : string) (l : list string) : bool :=
  existsb (String.eqb k) l.

(** [traits.loc[sp, trait]] *)
Definition traits_loc (sp trait : string) : res pyfloat :=
  (row <- getitem all_traits sp ;;
   x <- getitem row trait ;;
   Ok (Fin x))%res.

(** The inner loop of [absorption_score] over
    [nutrients[nutrient].items()]. *)
Fixpoint score_traits (sp : string) (ab : pyfloat) (ws : list (string * Q))
         (score : pyfloat) : res pyfloat :=
  match ws with
  | [] => Ok score
  | (trait, w) :: rest =>
      if in_list trait traits_columns then
        (t <- traits_loc sp trait ;;
         score_traits sp ab rest (fadd score (fmul (fmul ab t) (Fin w))))%res
      else score_traits sp ab rest score
  end.

(** [ab is not None and ab > 0] *)
Definition positive (ab : amount) : bool :=
  match ab with
  | Some x => fgt x (Fin 0)
  | None => false
  end.

(** The outer loop over [abundance.items()]. *)
Fixpoint score_items (nutrient : string) (items : abundance_dict)
         (score : pyfloat) : res pyfloat :=
  match items with
  | [] => Ok score
  | (sp, ab) :: rest =>
      if in_list sp traits_index && positive ab then
        match ab with
        | Some x =>
            (ws <- getitem nutrients nutrient ;;
             score' <- score_traits sp x ws score ;;
             score_items nutrient rest score')%res
        | None => score_items nutrient rest score
        end
      else score_items nutrient rest score
  end.

(** [sum(xs)], starting from 0. *)
Definition pysum (xs : list pyfloat) : pyfloat :=
  fold_left fadd xs (Fin 0).

(** [[v for v in abundance.values() if v is not None]] *)
Fixpoint not_none_values (d : abundance_dict) : list pyfloat :=
  match d with
  | [] => []
  | (_, Some x) :: rest => x :: not_none_values rest
  | (_, None) :: rest => not_none_values rest
  end.

Definition absorption_score (abundance : abundance_dict) (nutrient : string)
           (normalize : bool) : res pyfloat :=
  (score <- score_items nutrient abundance (Fin 0) ;;
   if normalize then
     let total_ab := pysum (not_none_values abundance) in
     if fgt total_ab (Fin 0) then fdiv score total_ab
     else Ok (Fin 0)
   else Ok score)%res.

End Engine.

(** ** The heap of dict objects and the Simulations page *)

Definition loc : Type := nat.
Definition heap : Type := list abundance_dict.

Definition heap_get (h : heap) (r : loc) : option abundance_dict := nth_error h r.

Fixpoint heap_set (h : heap) (r : loc) (d : abundance_dict) : heap :=
  match h, r with
  | [], _ => []
  | _ :: rest, O => d :: rest
  | x :: rest, S r' => x :: heap_set rest r' d
  end.

(** Heap computations that may raise. *)
Definition M (A : Type) : Type := heap -> res (A * heap).

Definition mret {A : Type} (a : A) : M A := fun h => Ok (a, h).

Definition mbind {A B : Type} (m : M A) (k : A -> M B) : M B :=
  fun h => match m h with
           | Ok (a, h') => k a h'
           | Raise e => Raise e
           end.

Definition lift {A : Type} (m : res A) : M A :=
  fun h => match m with
           | Ok a => Ok (a, h)
           | Raise e => Raise e
           end.

Declare Scope heap_scope.
Delimit Scope heap_scope with heap.
Notation "x <- m ;; k" := (mbind m (fun x => k))
  (at level 61, m at next level, right associativity) : heap_scope.

(** Reading through a reference; a dangling reference cannot occur in
    Python and is reported as a [KeyError] on the empty key. *)
Definition deref (r : loc) : M abundance_dict :=
  fun h => match heap_get h r with
           | Some d => Ok (d, h)
           | None => Raise (KeyError "")
           end.

(** [abundance.copy()]: a fresh dict object with the same items. *)
Definition dict_copy (r : loc) : M loc :=
  (d <- deref r ;; fun h => Ok (List.length h, (h ++ [d])%list))%heap.

(** [microbe in new] *)
Definition dict_contains (r : loc) (k : string) : M bool :=
  (d <- deref r ;; mret (contains k d))%heap.

(** [new[microbe]] *)
Definition dict_getitem (r : loc) (k : string) : M amount :=
  (d <- deref r ;; lift (getitem d k))%heap.

(** [new[microbe] = v], in place. *)
Definition dict_setitem (r : loc) (k : string) (v : amount) : M unit :=
  (d <- deref r ;; fun h => Ok (tt, heap_set h r (setitem d k v)))%heap.

(** [x + delta] where [x] was read from the dict: None has no [+]. *)
Definition amount_add (x : amount) (delta : pyfloat) : res pyfloat :=
  match x with
  | Some a => Ok (fadd a delta)
  | None => Raise TypeError
  end.

Definition simulate_addition (abundance : loc) (microbe : string) (delta : pyfloat)
  : M loc :=
  (new <- dict_copy abundance ;;
   present <- dict_contains new microbe ;;
   _ <- (if present : bool then
           (x <- dict_getitem new microbe ;;
            y <- lift (amount_add x delta) ;;
            dict_setitem new microbe (Some (pymax (Fin 0) y)))
         else
           dict_setitem new microbe (Some (pymax (Fin 0) delta))) ;;
   mret new)%heap.

(** [(change / baseline_score * 100) if baseline_score != 0 else np.nan] *)
Definition pct_change (change baseline_score : pyfloat) : res pyfloat :=
  if fne baseline_score (Fin 0) then
    (x <- fdiv change baseline_score ;; Ok (fmul x (Fin 100)))%res
  else Ok NaN.

Record simulation : Type := {
  baseline_score_of : pyfloat;
  new_score_of : pyfloat;
  change_of : pyfloat;
  pct_change_of : pyfloat
}.

(** [baseline_abundance.to_dict()]: a fresh dict object. *)
Definition to_dict (d : abundance_dict) : M loc :=
  fun h => Ok (List.length h, (h ++ [d])%list).

(** The computation of the Simulations page, from the baseline
    abundance and the three selections. *)
Definition simulate (species_list : list string) (baseline_abundance : abundance_dict)
           (selected_bacteria selected_nutrient : string) (delta : pyfloat)
  : M simulation :=
  (baseline_score <- lift (absorption_score species_list baseline_abundance
                                            selected_nutrient true) ;;
   d <- to_dict baseline_abundance ;;
   new_ref <- simulate_addition d selected_bacteria delta ;;
   new_abundance <- deref new_ref ;;
   new_score <- lift (absorption_score species_list new_abundance
                                       selected_nutrient true) ;;
   let change := fsub new_score baseline_score in
   pct <- lift (pct_change change baseline_score) ;;
   mret {| baseline_score_of := baseline_score;
           new_score_of := new_score;
           change_of := change;
           pct_change_of := pct |})%heap.

Definition run {A : Type} (m : M A) : res A :=
  match m [] with
  | Ok (a, _) => Ok a
  | Raise e => Raise e
  end.

(** ** Specification-level quantities

    The definitions below follow the wording of the specification; the
    theorems relate them to the functions above. *)

Local Open Scope Q_scope.

Definition Qsum (l : list Q) : Q := fold_right Qplus 0 l.

Definition Qltb (x y : Q) : bool := negb (Qle_bool y x).

Definition trait_names : list string :=
  ["SCFA"; "pH_reduction"; "Barrier_support"; "Vitamin_Biosynthesis"; "Siderophore"]%string.

Section Spec.
Variable species_list : list string.

(** The value of a trait for a species of the trait table. *)
Definition trait_value (sp trait : string) : Q :=
  match lookup sp (all_traits species_list) with
  | Some row => match lookup trait row with
                | Some x => x
                | None => 0
                end
  | None => 0
  end.

(** The (trait, weight) pairs whose trait is a trait-table column. *)
Definition usable (ws : list (string * Q)) : list (string * Q) :=
  filter (fun tw => in_list (fst tw) (traits_columns species_list)) ws.

(** Sum over those pairs of amount * traitValue * nutrientWeight. *)
Definition entry_score (ws : list (string * Q)) (sp : string) (a : Q) : Q :=
  Qsum (map (fun tw => a * trait_value sp (fst tw) * snd tw) (usable ws)).

(** Amount non-null, amount > 0, species present in the trait table. *)
Definition contributes (e : string * amount) : bool :=
  match snd e with
  | Some (Fin a) => Qltb 0 a && in_list (fst e) (traits_index species_list)
  | _ => false
  end.

Definition amount_q (ab : amount) : Q :=
  match ab with
  | Some (Fin a) => a
  | _ => 0
  end.

Definition raw_spec (ws : list (string * Q)) (v : abundance_dict) : Q :=
  Qsum (map (fun e => entry_score ws (fst e) (amount_q (snd e))) (filter contributes v)).
End Spec.

(** The sum of all non-null abundance values; NaN as soon as one of
    them is NaN. *)
Definition total_spec (v : abundance_dict) : pyfloat :=
  fold_right fadd (Fin 0) (not_none_values v).

(** The sum of the strictly positive, non-null abundance values. *)
Definition positive_total (v : abundance_dict) : Q :=
  Qsum (map (fun e => amount_q (snd e)) (filter (fun e => positive (snd e)) v)).

(** The amount the perturbed species ends with, in the words of the
    specification: max(0, current + delta) if present, max(0, delta) if
    absent. *)
Definition new_amount (v : abundance_dict) (s : string) (d : pyfloat) : pyfloat :=
  match lookup s v with
  | Some (Some a) => pymax (Fin 0) (fadd a d)
  | _ => pymax (Fin 0) d
  end.

Definition fneg (a : pyfloat) : pyfloat :=
  match a with
  | Fin x => Fin (- x)
  | NaN => NaN
  end.


(** A strictly negative amount. *)
Definition negative (ab : amount) : bool :=
  match ab with
  | Some x => fgt (Fin 0) x
  | None => false
  end.

Definition is_nan (ab : amount) : bool :=
  match ab with
  | Some NaN => true
  | _ => false
  end.

(** The vector without its null, zero, negative and NaN amounts. *)
Definition drop_nonpositive (v : abundance_dict) : abundance_dict :=
  filter (fun e => positive (snd e)) v.

(** The vector without its NaN amounts. *)
Definition drop_nan (v : abundance_dict) : abundance_dict :=
  filter (fun e => negb (is_nan (snd e))) v.

(** [applyDelta(applyDelta(v, s, d), s, -d)] *)
Definition round_trip (abundance : loc) (s : string) (d : pyfloat) : M loc :=
  (r1 <- simulate_addition abundance s d ;;
   simulate_addition r1 s (fneg d))%heap.


(** The contribution of one entry to the raw score. *)
Definition contribution (sl : list string) (ws : list (string * Q))
           (e : string * amount) : Q :=
  if contributes sl e then entry_score sl ws (fst e) (amount_q (snd e)) else 0.

(** The amount a key has before an assignment, [None] when it has no
    entry. *)
Definition old_amount (v : abundance_dict) (s : string) : amount :=
  match lookup s v with
  | Some ab => ab
  | None => None
  end.

(** ** The loaded table, the baseline and the pages

    What follows embeds the code around the scoring engine: the last
    steps of [load_data], the baseline, the score table and the
    per-species contributions of the Nutrient Absorption page, and the
    Simulations page from the loaded table on. *)

(** The table after [apply(pd.to_numeric, errors="coerce")]: one row
    per index entry; a cell is a number, or NaN when it was missing or
    not numeric. *)
Definition otu_table : Type := list (string * list pyfloat).

Definition isnan (x : pyfloat) : bool :=
  match x with
  | NaN => true
  | Fin _ => false
  end.

(** [dropna(how="all")]: the rows whose cells are all NaN are dropped. *)
Definition dropna_all (otu : otu_table) : otu_table :=
  filter (fun row => negb (forallb isnan (snd row))) otu.

(** The cells of a row that are not NaN. *)
Fixpoint notna (cells : list pyfloat) : list Q :=
  match cells with
  | [] => []
  | Fin q :: rest => q :: notna rest
  | NaN :: rest => notna rest
  end.

(** [mean(axis=1)] on one row: NaN cells are skipped, a row without a
    number has mean NaN. *)
Definition row_mean (cells : list pyfloat) : pyfloat :=
  match notna cells with
  | [] => NaN
  | xs => Fin (Qsum xs / inject_Z (Z.of_nat (List.length xs)))
  end.

(** A [pd.Series] of floats: index labels and values, in order. *)
Definition series : Type := list (string * pyfloat).

(** [otu.mean(axis=1)] *)
Definition baseline_abundance (otu : otu_table) : series :=
  map (fun row => (fst row, row_mean (snd row))) otu.

(** [baseline_abundance.index.tolist()] *)
Definition index_tolist (s : series) : list string := map fst s.

(** [Series.to_dict()]: a repeated label keeps its first position and
    its last value. *)
Definition series_to_dict (s : series) : abundance_dict :=
  fold_left (fun d kv => setitem d (fst kv) (Some (snd kv))) s [].

(** The Simulations page, from the coerced table on. *)
Definition simulations_page (coerced : otu_table)
           (selected_bacteria selected_nutrient : string) (delta : pyfloat)
  : M simulation :=
  let otu := dropna_all coerced in
  let baseline := baseline_abundance otu in
  simulate (index_tolist baseline) (series_to_dict baseline)
           selected_bacteria selected_nutrient delta.



(** The inner loop of the per-species contribution:
    [score += traits.loc[sp, trait] * weight]. *)
Fixpoint contrib_traits (sl : list string) (sp : string) (ws : list (string * Q))
         (score : pyfloat) : res pyfloat :=
  match ws with
  | [] => Ok score
  | (trait, weight) :: rest =>
      if in_list trait (traits_columns sl) then
        (t <- traits_loc sl sp trait ;;
         contrib_traits sl sp rest (fadd score (fmul t (Fin weight))))%res
      else contrib_traits sl sp rest score
  end.

(** The loop over [traits.index] filling [contrib]; the stored value is
    [max(score, 0)]. *)
Fixpoint contrib_loop (sl : list string) (selected_nutrient : string)
         (index : list string) (contrib : list (string * pyfloat))
  : res (list (string * pyfloat)) :=
  match index with
  | [] => Ok contrib
  | sp :: rest =>
      (ws <- getitem nutrients selected_nutrient ;;
       score <- contrib_traits sl sp ws (Fin 0) ;;
       contrib_loop sl selected_nutrient rest
                    (setitem contrib sp (pymax score (Fin 0))))%res
  end.

Definition contrib (sl : list string) (selected_nutrient : string)
  : res (list (string * pyfloat)) :=
  contrib_loop sl selected_nutrient (traits_index sl) [].

(** ** Further quantities used by the statements *)




(** The entries whose species is in the trait table. *)
Definition known_species (sl : list string) (v : abundance_dict) : abundance_dict :=
  filter (fun e => in_list (fst e) (traits_index sl)) v.


(** * Lemmas *)

(** ** Basic facts: floats *)

Lemma Qltb_iff (x y : Q) : Qltb x y = true <-> x < y.
Proof.
  unfold Qltb. rewrite negb_true_iff. split; intros H.
  - destruct (Qlt_le_dec x y) as [L|L]; [exact L|].
    apply Qle_bool_iff in L. congruence.
  - destruct (Qle_bool y x) eqn:E; [|reflexivity].
    apply Qle_bool_iff in E. lra.
Qed.

Lemma Qltb_false_iff (x y : Q) : Qltb x y = false <-> y <= x.
Proof.
  unfold Qltb. rewrite negb_false_iff. apply Qle_bool_iff.
Qed.

Lemma fgt_Fin (x y : Q) : fgt (Fin x) (Fin y) = true <-> y < x.
Proof.
  unfold fgt. split; intros H.
  - apply negb_true_iff in H. destruct (Qlt_le_dec y x) as [L|L]; [exact L|].
    apply Qle_bool_iff in L. congruence.
  - apply negb_true_iff. destruct (Qle_bool x y) eqn:E; [|reflexivity].
    apply Qle_bool_iff in E. lra.
Qed.

Lemma fgt_Fin_false (x y : Q) : fgt (Fin x) (Fin y) = false <-> x <= y.
Proof.
  unfold fgt. rewrite negb_false_iff. apply Qle_bool_iff.
Qed.

Lemma fgt_true_inv (a b : pyfloat) :
  fgt a b = true -> exists x y, a = Fin x /\ b = Fin y /\ y < x.
Proof.
  destruct a as [x|], b as [y|]; simpl; try discriminate.
  intros H. exists x, y. repeat split. now apply fgt_Fin.
Qed.

Lemma positive_inv (ab : amount) :
  positive ab = true -> exists a, ab = Some (Fin a) /\ 0 < a.
Proof.
  destruct ab as [x|]; simpl; [|discriminate].
  intros H. apply fgt_true_inv in H. destruct H as (a & y & -> & Hy & L).
  injection Hy as <-. now exists a.
Qed.

(** ** Basic facts: dictionaries *)

Lemma lookup_keys {V : Type} (k : string) (d : list (string * V)) :
  in_list k (keys d) = true -> exists v, lookup k d = Some v.
Proof.
  induction d as [|[k' v'] d IH]; simpl; [discriminate|].
  destruct (String.eqb k k'); simpl; [now exists v' | exact IH].
Qed.

Lemma lookup_tabulate {V : Type} (f : string -> V) (k : string) (l : list string) :
  lookup k (map (fun x => (x, f x)) l) = if in_list k l then Some (f k) else None.
Proof.
  induction l as [|x l IH]; simpl; [reflexivity|].
  destruct (String.eqb k x) eqn:E; simpl; [|exact IH].
  apply String.eqb_eq in E. now subst.
Qed.

Lemma lookup_setitem_same {V : Type} (d : list (string * V)) (k : string) (v : V) :
  lookup k (setitem d k v) = Some v.
Proof.
  induction d as [|[k' v'] d IH]; simpl.
  - now rewrite String.eqb_refl.
  - destruct (String.eqb k k') eqn:E; simpl; rewrite E; [reflexivity | exact IH].
Qed.

Lemma lookup_setitem_other {V : Type} (d : list (string * V)) (k t : string) (v : V) :
  t <> k -> lookup t (setitem d k v) = lookup t d.
Proof.
  intros N. induction d as [|[k' v'] d IH]; simpl.
  - destruct (String.eqb t k) eqn:E; [|reflexivity].
    apply String.eqb_eq in E. contradiction.
  - destruct (String.eqb k k') eqn:E; simpl.
    + apply String.eqb_eq in E. subst k'.
      destruct (String.eqb t k) eqn:E2; [|reflexivity].
      apply String.eqb_eq in E2. contradiction.
    + now rewrite IH.
Qed.

(** ** Basic facts: the trait table *)

Lemma keys_genus_row (g : string) :
  keys (get_default genus_traits g default_trait) = trait_names.
Proof.
  unfold get_default, genus_traits. simpl.
  repeat (match goal with
          | |- context [String.eqb g ?s] => destruct (String.eqb g s); [reflexivity|]
          end).
  reflexivity.
Qed.

Lemma traits_index_eq (sl : list string) : traits_index sl = sl.
Proof.
  unfold traits_index, keys, all_traits. rewrite map_map. simpl. apply map_id.
Qed.

Lemma lookup_genus_map (sl : list string) (sp : string) :
  in_list sp sl = true -> lookup sp (genus_map sl) = Some (get_genus sp).
Proof.
  intros H. unfold genus_map. rewrite lookup_tabulate. now rewrite H.
Qed.

Lemma lookup_all_traits (sl : list string) (sp : string) :
  in_list sp sl = true ->
  lookup sp (all_traits sl) = Some (get_default genus_traits (get_genus sp) default_trait).
Proof.
  intros H. unfold all_traits.
  rewrite (lookup_tabulate
             (fun sp => match lookup sp (genus_map sl) with
                        | Some genus => get_default genus_traits genus default_trait
                        | None => default_trait
                        end)).
  rewrite H. now rewrite lookup_genus_map.
Qed.

Lemma traits_columns_eq (sl : list string) :
  sl <> [] -> traits_columns sl = trait_names.
Proof.
  destruct sl as [|sp sl]; [congruence|]. intros _.
  unfold traits_columns, all_traits. simpl.
  rewrite String.eqb_refl. apply keys_genus_row.
Qed.

Lemma traits_loc_ok (sl : list string) (sp trait : string) :
  in_list sp (traits_index sl) = true ->
  in_list trait (traits_columns sl) = true ->
  traits_loc sl sp trait = Ok (Fin (trait_value sl sp trait)).
Proof.
  rewrite traits_index_eq. intros Hsp Htr.
  assert (Hne : sl <> []) by (destruct sl; [discriminate | congruence]).
  rewrite (traits_columns_eq sl Hne) in Htr.
  unfold traits_loc, trait_value, getitem.
  rewrite (lookup_all_traits sl sp Hsp). simpl.
  rewrite <- (keys_genus_row (get_genus sp)) in Htr.
  destruct (lookup_keys _ _ Htr) as [x Hx]. now rewrite Hx.
Qed.

(** ** The loops of [absorption_score] *)

Section Loops.
Variable sl : list string.

Lemma contributes_eq (sp : string) (ab : amount) :
  contributes sl (sp, ab) = in_list sp (traits_index sl) && positive ab.
Proof.
  unfold contributes. simpl. destruct ab as [[a|]|]; simpl.
  - apply andb_comm.
  - now rewrite andb_false_r.
  - now rewrite andb_false_r.
Qed.

Lemma score_traits_spec (sp : string) (a : Q) (ws : list (string * Q)) :
  in_list sp (traits_index sl) = true ->
  forall s, exists s',
    score_traits sl sp (Fin a) ws (Fin s) = Ok (Fin s')
    /\ s' == s + entry_score sl ws sp a.
Proof.
  intros Hsp. unfold entry_score, usable.
  induction ws as [|[trait w] ws IH]; intros s; simpl.
  - exists s. split; [reflexivity | lra].
  - destruct (in_list trait (traits_columns sl)) eqn:Hc; simpl.
    + rewrite (traits_loc_ok sl sp trait Hsp Hc). simpl.
      destruct (IH (s + a * trait_value sl sp trait * w)) as (s' & E & Hs').
      exists s'. split; [exact E|]. rewrite Hs'. lra.
    + apply IH.
Qed.

Lemma score_items_known (n : string) (ws : list (string * Q)) (v : abundance_dict) :
  lookup n nutrients = Some ws ->
  forall s, exists s',
    score_items sl n v (Fin s) = Ok (Fin s') /\ s' == s + raw_spec sl ws v.
Proof.
  intros Hn. unfold raw_spec.
  induction v as [|[sp ab] v IH]; intros s; simpl.
  - exists s. split; [reflexivity | lra].
  - rewrite contributes_eq.
    destruct (in_list sp (traits_index sl) && positive ab) eqn:Hq.
    + apply andb_true_iff in Hq. destruct Hq as [Hsp Hpos].
      destruct (positive_inv ab Hpos) as (a & -> & Ha).
      unfold getitem. rewrite Hn. simpl.
      destruct (score_traits_spec sp a ws Hsp s) as (s1 & E1 & H1).
      rewrite E1. simpl.
      destruct (IH s1) as (s2 & E2 & H2).
      exists s2. split; [exact E2|]. rewrite H2, H1. lra.
    + apply IH.
Qed.

Lemma score_items_unknown (n : string) (v : abundance_dict) (s : pyfloat) :
  lookup n nutrients = None ->
  score_items sl n v s =
    if existsb (contributes sl) v then Raise (KeyError n) else Ok s.
Proof.
  intros Hn. induction v as [|[sp ab] v IH]; simpl; [reflexivity|].
  rewrite contributes_eq.
  destruct (in_list sp (traits_index sl) && positive ab) eqn:Hq; simpl.
  - apply andb_true_iff in Hq. destruct Hq as [_ Hpos].
    destruct (positive_inv ab Hpos) as (a & -> & _).
    unfold getitem. now rewrite Hn.
  - exact IH.
Qed.

(** Entries that do not contribute can be dropped from the loop. *)
Lemma score_items_filter (p : string * amount -> bool) (n : string)
      (v : abundance_dict) :
  (forall e, contributes sl e = true -> p e = true) ->
  forall s, score_items sl n (filter p v) s = score_items sl n v s.
Proof.
  intros Hp. induction v as [|[sp ab] v IH]; intros s; simpl; [reflexivity|].
  destruct (p (sp, ab)) eqn:E; simpl.
  - destruct (in_list sp (traits_index sl) && positive ab); [|apply IH].
    destruct ab as [x|]; [|apply IH].
    destruct (getitem nutrients n); simpl; [|reflexivity].
    destruct (score_traits sl sp x a s); simpl; [apply IH | reflexivity].
  - rewrite <- contributes_eq.
    destruct (contributes sl (sp, ab)) eqn:C; [|apply IH].
    apply Hp in C. congruence.
Qed.
End Loops.

(** ** The denominator *)

Lemma fold_left_fadd_NaN (l : list pyfloat) : fold_left fadd l NaN = NaN.
Proof. induction l as [|x l IH]; simpl; [reflexivity | exact IH]. Qed.

Lemma pysum_total (l : list pyfloat) :
  forall s,
    match fold_left fadd l (Fin s), fold_right fadd (Fin 0) l with
    | Fin x, Fin y => x == s + y
    | NaN, NaN => True
    | _, _ => False
    end.
Proof.
  induction l as [|[a|] l IH]; intros s; simpl.
  - lra.
  - specialize (IH (s + a)).
    destruct (fold_left fadd l (Fin (s + a))), (fold_right fadd (Fin 0) l);
      simpl; try exact IH. lra.
  - rewrite fold_left_fadd_NaN. exact I.
Qed.

Lemma pysum_Fin (v : abundance_dict) (T : Q) :
  total_spec v = Fin T ->
  exists T', pysum (not_none_values v) = Fin T' /\ T' == T.
Proof.
  intros H. unfold pysum. unfold total_spec in H.
  pose proof (pysum_total (not_none_values v) 0) as P. rewrite H in P.
  destruct (fold_left fadd (not_none_values v) (Fin 0)) as [x|]; [|contradiction].
  exists x. split; [reflexivity | lra].
Qed.

Lemma pysum_NaN (v : abundance_dict) :
  total_spec v = NaN -> pysum (not_none_values v) = NaN.
Proof.
  intros H. unfold pysum. unfold total_spec in H.
  pose proof (pysum_total (not_none_values v) 0) as P. rewrite H in P.
  destruct (fold_left fadd (not_none_values v) (Fin 0)); [contradiction | reflexivity].
Qed.

Lemma fdiv_pos (x y : Q) : 0 < y -> fdiv (Fin x) (Fin y) = Ok (Fin (x / y)).
Proof.
  intros H. unfold fdiv. destruct (Qeq_bool y 0) eqn:E; [|reflexivity].
  apply Qeq_bool_iff in E. lra.
Qed.

(** ** [absorption_score] on a nutrient of the model *)

Section Score.
Variable sl : list string.
Variables (n : string) (ws : list (string * Q)).
Hypothesis Hn : lookup n nutrients = Some ws.

Lemma absorption_score_raw (v : abundance_dict) :
  exists x, absorption_score sl v n false = Ok (Fin x) /\ x == raw_spec sl ws v.
Proof.
  unfold absorption_score.
  destruct (score_items_known sl n ws v Hn 0) as (s & E & Hs).
  rewrite E. simpl. exists s. split; [reflexivity | lra].
Qed.

Lemma absorption_score_norm_pos (v : abundance_dict) (T : Q) :
  total_spec v = Fin T -> 0 < T ->
  exists x, absorption_score sl v n true = Ok (Fin x) /\ x == raw_spec sl ws v / T.
Proof.
  intros HT Hpos. unfold absorption_score.
  destruct (score_items_known sl n ws v Hn 0) as (s & E & Hs).
  destruct (pysum_Fin v T HT) as (T' & ET & HT').
  rewrite E, ET. cbn [rbind].
  assert (L : 0 < T') by lra.
  rewrite (proj2 (fgt_Fin T' 0) L), (fdiv_pos s T' L).
  exists (s / T'). split; [reflexivity|].
  rewrite Hs, HT'. apply Qdiv_comp; [lra | reflexivity].
Qed.

Lemma absorption_score_norm_nonpos (v : abundance_dict) (T : Q) :
  total_spec v = Fin T -> T <= 0 ->
  absorption_score sl v n true = Ok (Fin 0).
Proof.
  intros HT Hle. unfold absorption_score.
  destruct (score_items_known sl n ws v Hn 0) as (s & E & Hs).
  destruct (pysum_Fin v T HT) as (T' & ET & HT').
  rewrite E, ET. cbn [rbind].
  assert (L : T' <= 0) by lra.
  now rewrite (proj2 (fgt_Fin_false T' 0) L).
Qed.

Lemma absorption_score_norm_nan (v : abundance_dict) :
  total_spec v = NaN -> absorption_score sl v n true = Ok (Fin 0).
Proof.
  intros HT. unfold absorption_score.
  destruct (score_items_known sl n ws v Hn 0) as (s & E & Hs).
  rewrite E, (pysum_NaN v HT). reflexivity.
Qed.

Lemma absorption_score_total (v : abundance_dict) (normalize : bool) :
  exists x, absorption_score sl v n normalize = Ok (Fin x).
Proof.
  destruct normalize.
  - destruct (total_spec v) as [T|] eqn:HT.
    + destruct (Qlt_le_dec 0 T) as [L|L].
      * destruct (absorption_score_norm_pos v T HT L) as (x & E & _). now exists x.
      * exists 0. now apply (absorption_score_norm_nonpos v T).
    + exists 0. now apply absorption_score_norm_nan.
  - destruct (absorption_score_raw v) as (x & E & _). now exists x.
Qed.
End Score.

(** ** The heap and [simulate_addition] *)


Lemma heap_get_new (h : heap) (d : abundance_dict) :
  heap_get (h ++ [d])%list (List.length h) = Some d.
Proof.
  unfold heap_get. rewrite nth_error_app2 by apply Nat.le_refl.
  now rewrite Nat.sub_diag.
Qed.


Lemma heap_set_new (h : heap) (d d' : abundance_dict) :
  heap_set (h ++ [d])%list (List.length h) d' = (h ++ [d'])%list.
Proof.
  induction h as [|x h IH]; simpl; [reflexivity | now rewrite IH].
Qed.

Lemma simulate_addition_run (h : heap) (r : loc) (v : abundance_dict)
      (s : string) (d : pyfloat) :
  heap_get h r = Some v ->
  simulate_addition r s d h =
    match lookup s v with
    | Some None => Raise TypeError
    | _ => Ok (List.length h, (h ++ [setitem v s (Some (new_amount v s d))])%list)
    end.
Proof.
  intros Hr.
  unfold simulate_addition, dict_copy, dict_contains, dict_getitem, dict_setitem,
    mbind, mret, deref, lift, new_amount.
  unfold contains, getitem.
  destruct (lookup s v) as [[a|]|] eqn:E;
    repeat (cbn beta iota delta [amount_add];
            rewrite ?Hr, ?heap_get_new, ?heap_set_new, ?E);
    reflexivity.
Qed.

(** The same, when the perturbed species has no null amount. *)
Lemma simulate_addition_ok (h : heap) (r : loc) (v : abundance_dict)
      (s : string) (d : pyfloat) :
  heap_get h r = Some v ->
  lookup s v <> Some None ->
  simulate_addition r s d h =
    Ok (List.length h, (h ++ [setitem v s (Some (new_amount v s d))])%list).
Proof.
  intros Hr Hs. rewrite (simulate_addition_run h r v s d Hr).
  destruct (lookup s v) as [[a|]|]; [reflexivity | now elim Hs | reflexivity].
Qed.

Lemma pymax_zero_nonneg (y : pyfloat) : fgt (Fin 0) (pymax (Fin 0) y) = false.
Proof.
  unfold pymax. destruct (fgt y (Fin 0)) eqn:E.
  - destruct (fgt_true_inv _ _ E) as (a & b & -> & Hb & L).
    injection Hb as <-. apply fgt_Fin_false. lra.
  - apply fgt_Fin_false. lra.
Qed.

Lemma pymax_zero_pos (y : Q) : 0 < y -> pymax (Fin 0) (Fin y) = Fin y.
Proof. intros H. unfold pymax. now rewrite (proj2 (fgt_Fin y 0) H). Qed.

Lemma pymax_zero_nonpos (y : Q) : y <= 0 -> pymax (Fin 0) (Fin y) = Fin 0.
Proof. intros H. unfold pymax. now rewrite (proj2 (fgt_Fin_false y 0) H). Qed.

(** ** Percent change *)

Lemma pct_change_nonzero (c b : Q) :
  ~ b == 0 -> pct_change (Fin c) (Fin b) = Ok (Fin (c / b * 100)).
Proof.
  intros H. unfold pct_change, fne, fdiv.
  destruct (Qeq_bool b 0) eqn:E; [|reflexivity].
  apply Qeq_bool_iff in E. contradiction.
Qed.

Lemma pct_change_zero (c b : Q) :
  b == 0 -> pct_change (Fin c) (Fin b) = Ok NaN.
Proof.
  intros H. unfold pct_change, fne.
  apply Qeq_bool_iff in H. now rewrite H.
Qed.

(** * The claims *)

(** ** C2: the formula of [absorption_score] *)

(** C2. For a nutrient of the model, [absorption_score] with
    normalize=false returns the raw score: the sum, over the entries
    whose amount is non-null and > 0 and whose species is in the trait
    table, of amount * traitValue * weight over the nutrient's pairs
    whose trait is a column.  With normalize=true it returns the raw
    score divided by the sum of all non-null amounts when that sum is
    > 0, and 0.0 when that sum is <= 0. *)
Theorem absorption_score_formula
        (sl : list string) (v : abundance_dict) (n : string) (ws : list (string * Q)) :
  lookup n nutrients = Some ws ->
  (exists x, absorption_score sl v n false = Ok (Fin x) /\ x == raw_spec sl ws v)
  /\ (forall T, total_spec v = Fin T -> 0 < T ->
        exists x, absorption_score sl v n true = Ok (Fin x)
                  /\ x == raw_spec sl ws v / T)
  /\ (forall T, total_spec v = Fin T -> T <= 0 ->
        absorption_score sl v n true = Ok (Fin 0)).
Proof.
  intros Hn. split; [|split].
  - now apply absorption_score_raw.
  - intros T HT L. now apply absorption_score_norm_pos.
  - intros T HT L. now apply (absorption_score_norm_nonpos sl n ws Hn v T).
Qed.

Lemma absorption_score_formula_witness :
  lookup "Iron" nutrients
  = Some [("SCFA", 0.4); ("pH_reduction", 0.3); ("Barrier_support", 0.2);
          ("Siderophore", -0.6)]%string
  /\ exists x,
      absorption_score ["faecalibacterium_sp"; "escherichia_coli"]%string
        [("faecalibacterium_sp", Some (Fin 0.5)); ("escherichia_coli", Some (Fin 0.3))]%string
        "Iron" true = Ok (Fin x)
      /\ x == raw_spec ["faecalibacterium_sp"; "escherichia_coli"]%string
               [("SCFA", 0.4); ("pH_reduction", 0.3); ("Barrier_support", 0.2);
                ("Siderophore", -0.6)]%string
               [("faecalibacterium_sp", Some (Fin 0.5));
                ("escherichia_coli", Some (Fin 0.3))]%string / (0.5 + (0.3 + 0)).
Proof.
  split; [reflexivity|].
  exact (proj1 (proj2 (absorption_score_formula
                         ["faecalibacterium_sp"; "escherichia_coli"]%string
                         [("faecalibacterium_sp", Some (Fin 0.5));
                          ("escherichia_coli", Some (Fin 0.3))]%string
                         "Iron" _ eq_refl))
               (0.5 + (0.3 + 0)) eq_refl eq_refl).
Defined.

(** ** C1: what enters the numerator and the denominator *)

(** C1, counterexample. The normalized score is not the raw score over the sum of the
    strictly positive amounts: with amounts 2 and -1 the code divides
    the raw score 1.16 by 1, not by 2. *)
Lemma normalized_by_positive_total_counterexample :
  exists x,
    absorption_score ["lactobacillus_sp"; "escherichia_coli"]%string
      [("lactobacillus_sp", Some (Fin 2)); ("escherichia_coli", Some (Fin (-1)))]%string
      "Vitamin_B12" true = Ok (Fin x)
    /\ x == 1.16
    /\ ~ x == raw_spec ["lactobacillus_sp"; "escherichia_coli"]%string
               [("Vitamin_Biosynthesis", 0.7); ("Barrier_support", 0.2)]%string
               [("lactobacillus_sp", Some (Fin 2));
                ("escherichia_coli", Some (Fin (-1)))]%string
             / positive_total [("lactobacillus_sp", Some (Fin 2));
                               ("escherichia_coli", Some (Fin (-1)))]%string.
Proof.
  eexists. split; [vm_compute; reflexivity|]. split.
  - reflexivity.
  - vm_compute. discriminate.
Qed.

(** C1, amended. Entries whose amount is null, zero or negative are
    excluded from the raw-score numerator: the raw score is that of the
    vector without them.  Only null entries are excluded from the
    denominator: the normalized score is the raw score divided by the
    sum of all non-null amounts, zero and negative ones included, when
    that sum is positive. *)
Theorem absorption_score_exclusions
        (sl : list string) (v : abundance_dict) (n : string) :
  absorption_score sl v n false = absorption_score sl (drop_nonpositive v) n false
  /\ forall ws T,
      lookup n nutrients = Some ws ->
      total_spec v = Fin T -> 0 < T ->
      exists x, absorption_score sl v n true = Ok (Fin x)
                /\ x == raw_spec sl ws (drop_nonpositive v) / T.
Proof.
  split.
  - unfold absorption_score, drop_nonpositive.
    rewrite score_items_filter; [reflexivity|].
    intros [sp ab] C. rewrite contributes_eq in C.
    apply andb_true_iff in C. simpl. tauto.
  - intros ws T Hn HT L.
    destruct (absorption_score_norm_pos sl n ws Hn v T HT L) as (x & E & Hx).
    exists x. split; [exact E|]. rewrite Hx.
    apply Qdiv_comp; [|reflexivity].
    unfold raw_spec, drop_nonpositive.
    assert (F : filter (contributes sl) (filter (fun e => positive (snd e)) v)
                = filter (contributes sl) v).
    { clear. induction v as [|[sp ab] v IH]; simpl; [reflexivity|].
      destruct (positive ab) eqn:P; simpl.
      - now rewrite IH.
      - rewrite contributes_eq, P, andb_false_r. exact IH. }
    now rewrite F.
Qed.

Lemma absorption_score_exclusions_witness :
  exists x,
    absorption_score ["lactobacillus_sp"; "escherichia_coli"]%string
      [("lactobacillus_sp", Some (Fin 2)); ("escherichia_coli", Some (Fin (-1)))]%string
      "Vitamin_B12" true = Ok (Fin x)
    /\ x == raw_spec ["lactobacillus_sp"; "escherichia_coli"]%string
               [("Vitamin_Biosynthesis", 0.7); ("Barrier_support", 0.2)]%string
               (drop_nonpositive [("lactobacillus_sp", Some (Fin 2));
                                  ("escherichia_coli", Some (Fin (-1)))]%string)
            / (2 + (-1 + 0)).
Proof.
  exact (proj2 (absorption_score_exclusions
                  ["lactobacillus_sp"; "escherichia_coli"]%string
                  [("lactobacillus_sp", Some (Fin 2));
                   ("escherichia_coli", Some (Fin (-1)))]%string
                  "Vitamin_B12")
               _ (2 + (-1 + 0)) eq_refl eq_refl eq_refl).
Defined.

(** ** C3: when [absorption_score] raises *)

(** C3, counterexample. An unknown nutrient does not raise when no entry
    contributes. *)
Lemma unknown_nutrient_counterexample :
  lookup "Copper" nutrients = None
  /\ absorption_score ["lactobacillus_sp"]%string
       [("lactobacillus_sp", Some (Fin 0))]%string "Copper" true = Ok (Fin 0).
Proof. split; reflexivity. Qed.

(** C3, amended. [absorption_score] raises if and only if the nutrient
    is not a key of the nutrient model and some entry of the vector has
    a species of the trait table with a non-null amount > 0; the error
    is then the KeyError on the nutrient.  When the nutrient is in the
    model no error is raised for any abundance vector. *)
Theorem absorption_score_raises_iff
        (sl : list string) (v : abundance_dict) (n : string) (normalize : bool) :
  (forall e,
      absorption_score sl v n normalize = Raise e
      <-> e = KeyError n /\ lookup n nutrients = None
          /\ existsb (contributes sl) v = true)
  /\ (lookup n nutrients <> None ->
      exists x, absorption_score sl v n normalize = Ok (Fin x)).
Proof.
  destruct (lookup n nutrients) as [ws|] eqn:Hn.
  - destruct (absorption_score_total sl n ws Hn v normalize) as (x & E).
    split.
    + intros e. rewrite E. split; [discriminate|]. intros (_ & H & _). discriminate.
    + intros _. now exists x.
  - split; [|congruence]. intros e. unfold absorption_score.
    rewrite (score_items_unknown sl n v (Fin 0) Hn).
    destruct (existsb (contributes sl) v); cbn [rbind].
    + split.
      * intros H. injection H as <-. auto.
      * intros (-> & _). reflexivity.
    + split; [|intros (_ & _ & H); discriminate].
      destruct normalize; [|discriminate].
      destruct (fgt (pysum (not_none_values v)) (Fin 0)) eqn:G; [|discriminate].
      destruct (fgt_true_inv _ _ G) as (T & z & -> & Hz & L).
      injection Hz as <-. rewrite (fdiv_pos 0 T L). discriminate.
Qed.

Lemma absorption_score_raises_iff_witness :
  exists x,
    absorption_score ["lactobacillus_sp"]%string
      [("lactobacillus_sp", None); ("unseen_sp", Some (Fin (-1)))]%string
      "Zinc" true = Ok (Fin x).
Proof.
  apply (proj2 (absorption_score_raises_iff
                  ["lactobacillus_sp"]%string
                  [("lactobacillus_sp", None); ("unseen_sp", Some (Fin (-1)))]%string
                  "Zinc" true)).
  simpl. discriminate.
Defined.

(** ** C4: [simulate_addition] *)



(** A null amount for the perturbed species has no sum with the delta. *)
Lemma simulate_addition_null (h : heap) (r : loc) (v : abundance_dict)
      (s : string) (d : pyfloat) :
  heap_get h r = Some v ->
  lookup s v = Some None ->
  simulate_addition r s d h = Raise TypeError.
Proof.
  intros Hr Hs. rewrite (simulate_addition_run h r v s d Hr). now rewrite Hs.
Qed.

(** ** C7: no negative amount *)

(** C7, counterexample. A negative amount of another species is kept. *)
Lemma negative_amount_kept_counterexample :
  exists r' h' v',
    simulate_addition 0%nat "b" (Fin 1)
      [[("a", Some (Fin (-1))); ("b", Some (Fin 1))]%string] = Ok (r', h')
    /\ heap_get h' r' = Some v'
    /\ lookup "a" v' = Some (Some (Fin (-1)))
    /\ negative (Some (Fin (-1))) = true.
Proof.
  eexists _, _, _. repeat split; vm_compute; reflexivity.
Qed.

(** C7, amended. In the vector returned by [simulate_addition] the
    perturbed species never has a negative amount, for any delta; the
    other species keep their input amounts, so the returned vector has
    no negative amount as soon as no other species had one. *)
Theorem simulate_addition_nonnegative
        (h : heap) (r : loc) (v : abundance_dict) (s : string) (d : pyfloat) :
  heap_get h r = Some v ->
  lookup s v <> Some None ->
  exists r' h' v',
    simulate_addition r s d h = Ok (r', h')
    /\ heap_get h' r' = Some v'
    /\ (forall x, lookup s v' = Some x -> negative x = false)
    /\ ((forall t x, t <> s -> lookup t v = Some x -> negative x = false) ->
        forall t x, lookup t v' = Some x -> negative x = false).
Proof.
  intros Hr Hs.
  exists (List.length h), (h ++ [setitem v s (Some (new_amount v s d))])%list,
    (setitem v s (Some (new_amount v s d))).
  split; [now apply simulate_addition_ok|].
  split; [apply heap_get_new|].
  assert (Hnew : forall x, lookup s (setitem v s (Some (new_amount v s d))) = Some x ->
                           negative x = false).
  { intros x. rewrite lookup_setitem_same. intros H. injection H as <-.
    unfold new_amount. simpl.
    destruct (lookup s v) as [[a|]|]; apply pymax_zero_nonneg. }
  split; [exact Hnew|].
  intros Hv t x. destruct (string_dec t s) as [->|Ht].
  - apply Hnew.
  - rewrite (lookup_setitem_other v s t _ Ht). now apply Hv.
Qed.

Lemma simulate_addition_nonnegative_witness :
  exists r' h' v',
    simulate_addition 0%nat "b" (Fin (-3))
      [[("a", Some (Fin (-1))); ("b", Some (Fin 1))]%string] = Ok (r', h')
    /\ heap_get h' r' = Some v'
    /\ forall x, lookup "b" v' = Some x -> negative x = false.
Proof.
  destruct (simulate_addition_nonnegative
              [[("a", Some (Fin (-1))); ("b", Some (Fin 1))]%string] 0%nat
              [("a", Some (Fin (-1))); ("b", Some (Fin 1))]%string
              "b" (Fin (-3)) eq_refl)
    as (r' & h' & v' & E & Hnew & Hs & _).
  - simpl. discriminate.
  - exists r', h', v'. auto.
Defined.

(** ** C5: the round trip through the clamp *)

(** C5, counterexample. With amount 1 and delta -2 the round trip ends
    at 2, not at 0. *)
Lemma round_trip_counterexample :
  (0 <= 1 /\ 1 + -2 < 0)
  /\ exists r2 h2 v2 x,
      round_trip 0%nat "s" (Fin (-2)) [[("s", Some (Fin 1))]%string] = Ok (r2, h2)
      /\ heap_get h2 r2 = Some v2
      /\ lookup "s" v2 = Some (Some (Fin x))
      /\ x == 2
      /\ ~ x == 0.
Proof.
  split; [split; [discriminate | reflexivity]|].
  eexists _, _, _, _. repeat split; try (vm_compute; reflexivity).
  vm_compute. discriminate.
Qed.

(** C5, amended. For a species [s] with amount [a >= 0] and a delta [d]
    with [a + d < 0], the first call clamps the amount of [s] to 0 and
    the round trip ends with the amount [-d] for [s], which is greater
    than [a]: neither [a] nor 0. *)
Theorem round_trip_clamped
        (h : heap) (r : loc) (v : abundance_dict) (s : string) (a d : Q) :
  heap_get h r = Some v ->
  lookup s v = Some (Some (Fin a)) ->
  0 <= a -> a + d < 0 ->
  (exists r1 h1 v1,
      simulate_addition r s (Fin d) h = Ok (r1, h1)
      /\ heap_get h1 r1 = Some v1
      /\ lookup s v1 = Some (Some (Fin 0)))
  /\ exists r2 h2 v2 x,
      round_trip r s (Fin d) h = Ok (r2, h2)
      /\ heap_get h2 r2 = Some v2
      /\ lookup s v2 = Some (Some (Fin x))
      /\ x == - d /\ a < x /\ ~ x == 0.
Proof.
  intros Hr Hs Ha Hd.
  assert (Hs' : lookup s v <> Some None) by congruence.
  pose proof (simulate_addition_ok h r v s (Fin d) Hr Hs') as E1.
  assert (N1 : new_amount v s (Fin d) = Fin 0).
  { unfold new_amount. rewrite Hs. simpl fadd. apply pymax_zero_nonpos. lra. }
  rewrite N1 in E1.
  set (v1 := setitem v s (Some (Fin 0))) in *.
  set (h1 := (h ++ [v1])%list) in *.
  assert (L1 : lookup s v1 = Some (Some (Fin 0))) by apply lookup_setitem_same.
  split.
  - exists (List.length h), h1, v1. repeat split; auto. apply heap_get_new.
  - assert (Hr1 : heap_get h1 (List.length h) = Some v1) by apply heap_get_new.
    assert (L1' : lookup s v1 <> Some None) by congruence.
    pose proof (simulate_addition_ok h1 (List.length h) v1 s (fneg (Fin d)) Hr1 L1') as E2.
    assert (N2 : new_amount v1 s (fneg (Fin d)) = Fin (0 + - d)).
    { unfold new_amount. rewrite L1. simpl. apply pymax_zero_pos. lra. }
    rewrite N2 in E2.
    exists (List.length h1), (h1 ++ [setitem v1 s (Some (Fin (0 + - d)))])%list,
      (setitem v1 s (Some (Fin (0 + - d)))), (0 + - d).
    split.
    + unfold round_trip, mbind. rewrite E1. exact E2.
    + split; [apply heap_get_new|].
      split; [apply lookup_setitem_same|].
      repeat split; lra.
Qed.

Lemma round_trip_clamped_witness :
  exists r2 h2 v2 x,
    round_trip 0%nat "s" (Fin (-2)) [[("s", Some (Fin 1))]%string] = Ok (r2, h2)
    /\ heap_get h2 r2 = Some v2
    /\ lookup "s" v2 = Some (Some (Fin x))
    /\ x == - (-2) /\ 1 < x /\ ~ x == 0.
Proof.
  apply (proj2 (round_trip_clamped [[("s", Some (Fin 1))]%string] 0%nat
                                   [("s", Some (Fin 1))]%string "s" 1 (-2)
                                   eq_refl eq_refl ltac:(discriminate) eq_refl)).
Defined.

(** ** C9: percent change *)

Lemma simulate_run (sl : list string) (v : abundance_dict) (s n : string)
      (d : pyfloat) (h : heap) (b p : Q) :
  lookup s v <> Some None ->
  absorption_score sl v n true = Ok (Fin b) ->
  absorption_score sl (setitem v s (Some (new_amount v s d))) n true = Ok (Fin p) ->
  simulate sl v s n d h =
    Ok ({| baseline_score_of := Fin b;
           new_score_of := Fin p;
           change_of := Fin (p - b);
           pct_change_of := if Qeq_bool b 0 then NaN else Fin ((p - b) / b * 100) |},
        ((h ++ [v]) ++ [setitem v s (Some (new_amount v s d))])%list).
Proof.
  intros Hs Eb Ep.
  unfold simulate, mbind, lift, to_dict, mret. rewrite Eb.
  rewrite (simulate_addition_ok (h ++ [v])%list (List.length h) v s d
                                (heap_get_new h v) Hs).
  unfold deref. rewrite heap_get_new, Ep. cbn [fsub].
  destruct (Qeq_bool b 0) eqn:Z.
  - apply Qeq_bool_iff in Z. now rewrite (pct_change_zero (p - b) b Z).
  - apply Qeq_bool_neq in Z. now rewrite (pct_change_nonzero (p - b) b Z).
Qed.



(** On that input the baseline score is 0 and the percent change NaN. *)
Example simulate_zero_baseline :
  exists r,
    run (simulate ["lactobacillus_sp"]%string [("lactobacillus_sp", Some (Fin 0))]%string
                  "lactobacillus_sp" "Vitamin_B12" (Fin 0.5)) = Ok r
    /\ baseline_score_of r = Fin 0
    /\ pct_change_of r = NaN.
Proof. eexists. split; [vm_compute; reflexivity | split; reflexivity]. Qed.

(** ** C6: linearity of the raw score *)

Section Linearity.
Variables (sl : list string) (k : Q).
Hypothesis Hk : 0 < k.




End Linearity.



(** ** C10: a NaN amount *)

Lemma total_spec_nan (v : abundance_dict) (sp : string) :
  In (sp, Some NaN) v -> total_spec v = NaN.
Proof.
  unfold total_spec. induction v as [|[sp' ab] v IH]; simpl; [tauto|].
  intros [H|H].
  - injection H as _ ->. reflexivity.
  - destruct ab as [x|]; simpl; [|now apply IH].
    rewrite (IH H). now destruct x.
Qed.

(** C10. For a nutrient of the model and a vector with at least one
    NaN amount, the normalized score is 0.0 whatever the other entries
    are; with normalize=false the NaN entries are skipped and the score
    is the raw score of the remaining entries. *)
Theorem absorption_score_nan
        (sl : list string) (v : abundance_dict) (n sp : string)
        (ws : list (string * Q)) :
  lookup n nutrients = Some ws ->
  In (sp, Some NaN) v ->
  absorption_score sl v n true = Ok (Fin 0)
  /\ absorption_score sl v n false = absorption_score sl (drop_nan v) n false
  /\ exists x, absorption_score sl v n false = Ok (Fin x)
               /\ x == raw_spec sl ws (drop_nan v).
Proof.
  intros Hn Hin.
  assert (E : absorption_score sl v n false = absorption_score sl (drop_nan v) n false).
  { unfold absorption_score, drop_nan.
    rewrite score_items_filter; [reflexivity|].
    intros [sp' ab] C. unfold contributes in C. simpl in *.
    now destruct ab as [[a|]|]. }
  split; [|split].
  - apply (absorption_score_norm_nan sl n ws Hn). now apply (total_spec_nan v sp).
  - exact E.
  - rewrite E. now apply absorption_score_raw.
Qed.

Lemma absorption_score_nan_witness :
  absorption_score ["lactobacillus_sp"; "roseburia_sp"]%string
    [("lactobacillus_sp", Some (Fin 0.4)); ("roseburia_sp", Some NaN)]%string
    "Folate" true = Ok (Fin 0)
  /\ exists x,
      absorption_score ["lactobacillus_sp"; "roseburia_sp"]%string
        [("lactobacillus_sp", Some (Fin 0.4)); ("roseburia_sp", Some NaN)]%string
        "Folate" false = Ok (Fin x)
      /\ x == 0.144.
Proof.
  destruct (absorption_score_nan
              ["lactobacillus_sp"; "roseburia_sp"]%string
              [("lactobacillus_sp", Some (Fin 0.4)); ("roseburia_sp", Some NaN)]%string
              "Folate" "roseburia_sp" _ eq_refl (or_intror (or_introl eq_refl)))
    as (H1 & _ & x & Ex & Hx).
  split; [exact H1|].
  exists x. split; [exact Ex|]. rewrite Hx. reflexivity.
Defined.

(** ** C8: adding a lactobacillus species and the Vitamin_B12 score *)

Lemma row_nonneg (g trait : string) :
  match lookup trait (get_default genus_traits g default_trait) with
  | Some x => 0 <= x
  | None => True
  end.
Proof.
  unfold get_default, genus_traits. simpl.
  repeat (match goal with
          | |- context [String.eqb g ?s] => destruct (String.eqb g s)
          end);
    unfold default_trait, mk_row; simpl;
    repeat (match goal with
            | |- context [String.eqb trait ?s] => destruct (String.eqb trait s)
            end);
    first [exact I | discriminate].
Qed.

Lemma trait_value_nonneg (sl : list string) (sp trait : string) :
  0 <= trait_value sl sp trait.
Proof.
  unfold trait_value.
  destruct (in_list sp sl) eqn:Hsp.
  - rewrite (lookup_all_traits sl sp Hsp).
    pose proof (row_nonneg (get_genus sp) trait) as H.
    destruct (lookup trait (get_default genus_traits (get_genus sp) default_trait));
      [exact H | lra].
  - unfold all_traits.
    rewrite (lookup_tabulate
               (fun sp => match lookup sp (genus_map sl) with
                          | Some genus => get_default genus_traits genus default_trait
                          | None => default_trait
                          end)).
    rewrite Hsp. lra.
Qed.

Section Perturbation.
Variables (sl : list string) (ws : list (string * Q)).

Lemma raw_spec_cons (e : string * amount) (v : abundance_dict) :
  raw_spec sl ws (e :: v) == contribution sl ws e + raw_spec sl ws v.
Proof.
  unfold raw_spec, contribution. simpl.
  destruct (contributes sl e); simpl; lra.
Qed.

Lemma raw_spec_setitem (v : abundance_dict) (s : string) (x : amount) :
  raw_spec sl ws (setitem v s x)
  == raw_spec sl ws v + contribution sl ws (s, x)
     - contribution sl ws (s, old_amount v s).
Proof.
  unfold old_amount. induction v as [|[k' ab] v IH]; simpl.
  - rewrite raw_spec_cons. unfold contribution at 3, contributes. simpl. lra.
  - destruct (String.eqb s k') eqn:E.
    + apply String.eqb_eq in E. subst k'. rewrite !raw_spec_cons. lra.
    + rewrite !raw_spec_cons, IH. lra.
Qed.

Lemma entry_score_nonneg (sp : string) (a : Q) :
  (forall tw, In tw ws -> 0 <= snd tw) -> 0 <= a ->
  0 <= entry_score sl ws sp a.
Proof.
  intros Hw Ha. unfold entry_score, usable.
  induction ws as [|[trait w] l IH]; simpl; [lra|].
  assert (Hl : forall tw, In tw l -> 0 <= snd tw) by (intros tw H; apply Hw; now right).
  specialize (IH Hl).
  destruct (in_list trait (traits_columns sl)); simpl; [|exact IH].
  pose proof (trait_value_nonneg sl sp trait) as Ht.
  assert (Hw0 : 0 <= w) by (apply (Hw (trait, w)); now left).
  assert (0 <= a * trait_value sl sp trait) by nra.
  nra.
Qed.

End Perturbation.








(** * Further properties of the code *)

(** ** [get_genus] *)















(** ** The trait table *)

Lemma row_range (g trait : string) :
  In trait trait_names ->
  exists x, lookup trait (get_default genus_traits g default_trait) = Some x
            /\ 0 <= x <= 1.
Proof.
  intros H. unfold get_default, genus_traits. simpl.
  repeat (match goal with
          | |- context [String.eqb g ?s] => destruct (String.eqb g s)
          end);
    unfold default_trait, mk_row;
    simpl in H;
    repeat (destruct H as [<-|H];
            [simpl; eexists; split; [reflexivity | split; discriminate]|]);
    contradiction.
Qed.

(** Every species of the table has a value in [0, 1] for each of the
    five traits; [traits.loc] raises the KeyError on a species that is
    not in the table. *)
Theorem traits_loc_covered (sl : list string) (sp trait : string) :
  (in_list sp sl = true -> In trait trait_names ->
   exists x, traits_loc sl sp trait = Ok (Fin x) /\ 0 <= x <= 1)
  /\ (in_list sp sl = false -> traits_loc sl sp trait = Raise (KeyError sp)).
Proof.
  split.
  - intros Hsp Htr. unfold traits_loc, getitem.
    rewrite (lookup_all_traits sl sp Hsp). simpl.
    destruct (row_range (get_genus sp) trait Htr) as (x & E & R).
    rewrite E. now exists x.
  - intros Hsp. unfold traits_loc, getitem, all_traits.
    rewrite (lookup_tabulate
               (fun sp => match lookup sp (genus_map sl) with
                          | Some genus => get_default genus_traits genus default_trait
                          | None => default_trait
                          end)).
    now rewrite Hsp.
Qed.

Lemma traits_loc_covered_witness :
  (exists x, traits_loc ["Prevotella_copri"; "novel_sp"]%string "novel_sp" "Siderophore"
             = Ok (Fin x) /\ 0 <= x <= 1)
  /\ traits_loc ["Prevotella_copri"; "novel_sp"]%string "absent_sp" "Siderophore"
     = Raise (KeyError "absent_sp").
Proof.
  split.
  - apply (proj1 (traits_loc_covered ["Prevotella_copri"; "novel_sp"]%string
                                     "novel_sp" "Siderophore")).
    + reflexivity.
    + simpl. tauto.
  - apply (proj2 (traits_loc_covered ["Prevotella_copri"; "novel_sp"]%string
                                     "absent_sp" "Siderophore")).
    reflexivity.
Defined.

(** Two species of the table with the same genus have the same trait
    row, whatever their position in the table and the case of their
    names. *)
Theorem same_genus_same_traits (sl : list string) (s1 s2 : string) :
  in_list s1 sl = true -> in_list s2 sl = true ->
  get_genus s1 = get_genus s2 ->
  lookup s1 (all_traits sl) = lookup s2 (all_traits sl)
  /\ forall trait, traits_loc sl s1 trait = traits_loc sl s2 trait.
Proof.
  intros H1 H2 Hg.
  assert (E : lookup s1 (all_traits sl) = lookup s2 (all_traits sl)).
  { now rewrite (lookup_all_traits sl s1 H1), (lookup_all_traits sl s2 H2), Hg. }
  split; [exact E|].
  intros trait. unfold traits_loc, getitem.
  now rewrite (lookup_all_traits sl s1 H1), (lookup_all_traits sl s2 H2), Hg.
Qed.

Lemma same_genus_same_traits_witness :
  lookup "Bacteroides_fragilis"
         (all_traits ["Bacteroides_fragilis"; "x_sp"; "bacteroides_ovatus"]%string)
  = lookup "bacteroides_ovatus"
           (all_traits ["Bacteroides_fragilis"; "x_sp"; "bacteroides_ovatus"]%string).
Proof.
  apply (proj1 (same_genus_same_traits
                  ["Bacteroides_fragilis"; "x_sp"; "bacteroides_ovatus"]%string
                  "Bacteroides_fragilis" "bacteroides_ovatus"
                  eq_refl eq_refl eq_refl)).
Defined.

(** A species of the table whose genus is none of the sixteen keys of
    [genus_traits] has the default row. *)
Theorem unknown_genus_default (sl : list string) (sp : string) :
  in_list sp sl = true ->
  lookup (get_genus sp) genus_traits = None ->
  lookup sp (all_traits sl) = Some default_trait.
Proof.
  intros Hsp Hg. rewrite (lookup_all_traits sl sp Hsp).
  unfold get_default. now rewrite Hg.
Qed.

Lemma unknown_genus_default_witness :
  lookup "Akkermansia_muciniphila"
         (all_traits ["Akkermansia_muciniphila"; "Roseburia_hominis"]%string)
  = Some default_trait.
Proof.
  apply unknown_genus_default; reflexivity.
Defined.

(** ** [absorption_score]: vectors without a positive amount, species
    outside the table *)

Lemma score_items_no_positive (sl : list string) (n : string) (v : abundance_dict)
      (s : pyfloat) :
  (forall e, In e v -> positive (snd e) = false) ->
  score_items sl n v s = Ok s.
Proof.
  induction v as [|[sp ab] v IH]; intros H; simpl; [reflexivity|].
  pose proof (H (sp, ab) (or_introl eq_refl)) as P. simpl in P.
  rewrite P, andb_false_r.
  apply IH. intros e He. apply H. now right.
Qed.

Lemma pysum_no_positive (l : list pyfloat) :
  (forall x, In x l -> fgt x (Fin 0) = false) ->
  forall s, s <= 0 -> fgt (fold_left fadd l (Fin s)) (Fin 0) = false.
Proof.
  induction l as [|[a|] l IH]; intros H s Hs; simpl.
  - now apply fgt_Fin_false.
  - apply IH; [intros x Hx; apply H; now right|].
    pose proof (H (Fin a) (or_introl eq_refl)) as Ha.
    apply fgt_Fin_false in Ha. lra.
  - now rewrite fold_left_fadd_NaN.
Qed.

Lemma not_none_values_in (v : abundance_dict) (x : pyfloat) :
  In x (not_none_values v) -> exists sp, In (sp, Some x) v.
Proof.
  induction v as [|[sp [y|]] v IH]; simpl; [tauto| |].
  - intros [<-|H]; [exists sp; now left|].
    destruct (IH H) as (sp' & H'). exists sp'. now right.
  - intros H. destruct (IH H) as (sp' & H'). exists sp'. now right.
Qed.

(** A vector without a strictly positive amount (empty, or made of
    null, NaN, zero and negative amounts) has score 0.0 in both modes,
    and no error is raised even for a nutrient outside the model. *)
Theorem absorption_score_no_positive
        (sl : list string) (v : abundance_dict) (n : string) (normalize : bool) :
  (forall e, In e v -> positive (snd e) = false) ->
  absorption_score sl v n normalize = Ok (Fin 0).
Proof.
  intros H. unfold absorption_score.
  rewrite (score_items_no_positive sl n v (Fin 0) H). cbn [rbind].
  destruct normalize; [|reflexivity].
  assert (Hv : forall x, In x (not_none_values v) -> fgt x (Fin 0) = false).
  { intros x Hx. destruct (not_none_values_in v x Hx) as (sp & Hin).
    apply (H (sp, Some x) Hin). }
  assert (H0 : 0 <= 0) by lra.
  unfold pysum. now rewrite (pysum_no_positive (not_none_values v) Hv 0 H0).
Qed.

Lemma absorption_score_no_positive_witness :
  absorption_score ["roseburia_sp"; "prevotella_sp"]%string
    [("roseburia_sp", Some (Fin 0)); ("prevotella_sp", Some (Fin (-0.2)));
     ("other", None); ("more", Some NaN)]%string
    "Copper" true = Ok (Fin 0).
Proof.
  apply absorption_score_no_positive.
  intros e H. simpl in H.
  repeat (destruct H as [<-|H]; [reflexivity|]). contradiction.
Defined.

(** Species that are not in the trait table add nothing to the raw
    score: the raw score is that of the vector restricted to the species
    of the table. *)
Theorem absorption_score_known_species
        (sl : list string) (v : abundance_dict) (n : string) :
  absorption_score sl v n false = absorption_score sl (known_species sl v) n false.
Proof.
  unfold absorption_score, known_species.
  rewrite score_items_filter; [reflexivity|].
  intros [sp ab] C. rewrite contributes_eq in C.
  apply andb_true_iff in C. simpl. tauto.
Qed.

(** ** [absorption_score]: scaling, bounds, monotonicity *)












Lemma entry_score_unit (sl : list string) (ws : list (string * Q)) (sp : string) (a : Q) :
  entry_score sl ws sp a == a * entry_score sl ws sp 1.
Proof.
  unfold entry_score. induction (usable sl ws) as [|[trait w] l IH]; simpl.
  - lra.
  - rewrite IH. lra.
Qed.

Lemma contribution_nonneg (sl : list string) (ws : list (string * Q))
      (e : string * amount) :
  (forall tw, In tw ws -> 0 <= snd tw) -> 0 <= contribution sl ws e.
Proof.
  intros Hw. unfold contribution.
  destruct (contributes sl e) eqn:C; [|lra].
  unfold contributes in C. destruct e as [sp [[a|]|]]; simpl in *; try discriminate.
  apply andb_true_iff in C. destruct C as [C _]. apply Qltb_iff in C.
  apply entry_score_nonneg; [exact Hw | lra].
Qed.

Lemma contribution_mono (sl : list string) (ws : list (string * Q))
      (s : string) (a b : Q) :
  (forall tw, In tw ws -> 0 <= snd tw) -> a <= b ->
  contribution sl ws (s, Some (Fin a)) <= contribution sl ws (s, Some (Fin b)).
Proof.
  intros Hw Hab. unfold contribution, contributes. simpl.
  pose proof (entry_score_unit sl ws s a) as Ua.
  pose proof (entry_score_unit sl ws s b) as Ub.
  assert (H1 : 0 <= 1) by lra.
  pose proof (entry_score_nonneg sl ws s 1 Hw H1) as U.
  destruct (in_list s (traits_index sl)); rewrite ?andb_true_r, ?andb_false_r; [|lra].
  destruct (Qltb 0 a) eqn:Pa, (Qltb 0 b) eqn:Pb;
    rewrite ?Qltb_iff, ?Qltb_false_iff in *; try nra.
Qed.

(** For a nutrient whose weights are all non-negative, a non-negative
    delta on any species never lowers the raw score. *)
Theorem raw_score_monotone
        (sl : list string) (n : string) (ws : list (string * Q))
        (h : heap) (r : loc) (v : abundance_dict) (s : string) (d : Q) :
  lookup n nutrients = Some ws ->
  (forall tw, In tw ws -> 0 <= snd tw) ->
  heap_get h r = Some v ->
  lookup s v <> Some None ->
  0 <= d ->
  exists r' h' v' x y,
    simulate_addition r s (Fin d) h = Ok (r', h')
    /\ heap_get h' r' = Some v'
    /\ absorption_score sl v n false = Ok (Fin x)
    /\ absorption_score sl v' n false = Ok (Fin y)
    /\ x <= y.
Proof.
  intros Hn Hw Hr Hs Hd.
  set (v' := setitem v s (Some (new_amount v s (Fin d)))).
  destruct (absorption_score_raw sl n ws Hn v) as (x & Ex & Hx).
  destruct (absorption_score_raw sl n ws Hn v') as (y & Ey & Hy).
  exists (List.length h), (h ++ [v'])%list, v', x, y.
  split; [now apply simulate_addition_ok|].
  split; [apply heap_get_new|].
  split; [exact Ex|]. split; [exact Ey|].
  pose proof (raw_spec_setitem sl ws v s (Some (new_amount v s (Fin d)))) as HR.
  fold v' in HR.
  assert (C : contribution sl ws (s, old_amount v s)
              <= contribution sl ws (s, Some (new_amount v s (Fin d)) : amount)).
  { unfold old_amount, new_amount.
    destruct (lookup s v) as [[[a|]|]|].
    - cbn [fadd]. destruct (Qlt_le_dec 0 (a + d)) as [L|L].
      + rewrite (pymax_zero_pos _ L). apply contribution_mono; [exact Hw | lra].
      + rewrite (pymax_zero_nonpos _ L). apply contribution_mono; [exact Hw | lra].
    - cbn [fadd]. unfold pymax. simpl. unfold contribution, contributes. simpl. lra.
    - now elim Hs.
    - unfold contribution at 1. unfold contributes. simpl.
      now apply contribution_nonneg. }
  lra.
Qed.

Lemma raw_score_monotone_witness :
  exists r' h' v' x y,
    simulate_addition 0%nat "roseburia_sp" (Fin 0.05)
      [[("roseburia_sp", Some (Fin 0.1)); ("prevotella_sp", Some (Fin 0.3))]%string]
    = Ok (r', h')
    /\ heap_get h' r' = Some v'
    /\ absorption_score ["roseburia_sp"; "prevotella_sp"]%string
         [("roseburia_sp", Some (Fin 0.1)); ("prevotella_sp", Some (Fin 0.3))]%string
         "Calcium" false = Ok (Fin x)
    /\ absorption_score ["roseburia_sp"; "prevotella_sp"]%string v' "Calcium" false
       = Ok (Fin y)
    /\ x <= y.
Proof.
  assert (Hw : forall tw, In tw [("SCFA", 0.5); ("pH_reduction", 0.4)]%string -> 0 <= snd tw).
  { intros tw [<-|[<-|[]]]; discriminate. }
  assert (Hs : lookup "roseburia_sp"
                 [("roseburia_sp", Some (Fin 0.1)); ("prevotella_sp", Some (Fin 0.3))]%string
               <> Some None) by discriminate.
  assert (Hd : 0 <= 0.05) by discriminate.
  exact (raw_score_monotone ["roseburia_sp"; "prevotella_sp"]%string "Calcium" _
           [[("roseburia_sp", Some (Fin 0.1)); ("prevotella_sp", Some (Fin 0.3))]%string]
           0%nat _ "roseburia_sp" 0.05 eq_refl Hw eq_refl Hs Hd).
Defined.

(** ** [simulate_addition]: keys and the round trip without clamping *)

Lemma keys_setitem {V : Type} (d : list (string * V)) (k : string) (x : V) :
  keys (setitem d k x) = if contains k d then keys d else (keys d ++ [k])%list.
Proof.
  unfold contains, keys. induction d as [|[k' v'] d IH]; simpl; [reflexivity|].
  destruct (String.eqb k k') eqn:E; simpl; [reflexivity|].
  rewrite IH. now destruct (lookup k d).
Qed.

Lemma contains_keys {V : Type} (d : list (string * V)) (k : string) :
  contains k d = false -> ~ In k (keys d).
Proof.
  unfold contains, keys. induction d as [|[k' v'] d IH]; simpl; [tauto|].
  destruct (String.eqb k k') eqn:E; [discriminate|].
  intros H [->|Hin]; [now rewrite String.eqb_refl in E | now apply IH].
Qed.

(** The returned dict has the species of the input in the same order,
    with the perturbed species appended when it was absent; keys stay
    distinct. *)
Theorem simulate_addition_keys
        (h : heap) (r : loc) (v : abundance_dict) (s : string) (d : pyfloat) :
  heap_get h r = Some v ->
  lookup s v <> Some None ->
  exists r' h' v',
    simulate_addition r s d h = Ok (r', h')
    /\ heap_get h' r' = Some v'
    /\ (contains s v = true -> keys v' = keys v)
    /\ (contains s v = false -> keys v' = (keys v ++ [s])%list)
    /\ (NoDup (keys v) -> NoDup (keys v')).
Proof.
  intros Hr Hs.
  exists (List.length h), (h ++ [setitem v s (Some (new_amount v s d))])%list,
    (setitem v s (Some (new_amount v s d))).
  split; [now apply simulate_addition_ok|].
  split; [apply heap_get_new|].
  rewrite keys_setitem.
  destruct (contains s v) eqn:C.
  - split; [reflexivity|]. split; [discriminate | tauto].
  - split; [discriminate|]. split; [reflexivity|].
    intros N. apply NoDup_app.
    + exact N.
    + constructor; [simpl; tauto | constructor].
    + intros x Hx [E|[]]. subst x. now apply (contains_keys v s C).
Qed.

Lemma simulate_addition_keys_witness :
  exists r' h' v',
    simulate_addition 0%nat "new_sp" (Fin 0.2)
      [[("roseburia_sp", Some (Fin 0.1)); ("prevotella_sp", Some (Fin 0.3))]%string]
    = Ok (r', h')
    /\ heap_get h' r' = Some v'
    /\ keys v' = ["roseburia_sp"; "prevotella_sp"; "new_sp"]%string.
Proof.
  destruct (simulate_addition_keys
              [[("roseburia_sp", Some (Fin 0.1)); ("prevotella_sp", Some (Fin 0.3))]%string]
              0%nat
              [("roseburia_sp", Some (Fin 0.1)); ("prevotella_sp", Some (Fin 0.3))]%string
              "new_sp" (Fin 0.2) eq_refl)
    as (r' & h' & v' & E & Hnew & _ & Habs & _).
  - discriminate.
  - exists r', h', v'. split; [exact E|]. split; [exact Hnew|].
    apply Habs. reflexivity.
Defined.




(** ** The loaded table and the baseline *)

Lemma notna_nonempty (cells : list pyfloat) :
  forallb isnan cells = false -> notna cells <> [].
Proof.
  induction cells as [|[q|] cells IH]; simpl; [discriminate | discriminate | exact IH].
Qed.





Lemma row_mean_Fin (cells : list pyfloat) :
  notna cells <> [] ->
  row_mean cells
  = Fin (Qsum (notna cells) / inject_Z (Z.of_nat (List.length (notna cells)))).
Proof.
  unfold row_mean. destruct (notna cells); [congruence | reflexivity].
Qed.

Lemma baseline_in (otu : otu_table) (sp : string) (x : pyfloat) :
  In (sp, x) (baseline_abundance (dropna_all otu)) ->
  exists cells, In (sp, cells) otu /\ notna cells <> [] /\ x = row_mean cells.
Proof.
  unfold baseline_abundance, dropna_all. intros H.
  apply in_map_iff in H. destruct H as ([sp' cells] & E & H).
  apply filter_In in H. destruct H as [Hin Hf]. simpl in *.
  injection E as <- <-. exists cells. split; [exact Hin|]. split; [|reflexivity].
  apply notna_nonempty. now apply negb_true_iff.
Qed.







(** ** [Series.to_dict] *)

Lemma lookup_app {V : Type} (k : string) (l1 l2 : list (string * V)) :
  lookup k (l1 ++ l2) = match lookup k l1 with
                        | Some x => Some x
                        | None => lookup k l2
                        end.
Proof.
  induction l1 as [|[k' v'] l1 IH]; simpl; [reflexivity|].
  now destruct (String.eqb k k').
Qed.

Lemma lookup_In {V : Type} (k : string) (l : list (string * V)) (x : V) :
  lookup k l = Some x -> In (k, x) l.
Proof.
  induction l as [|[k' v'] l IH]; simpl; [discriminate|].
  destruct (String.eqb k k') eqn:E.
  - apply String.eqb_eq in E. subst k'. intros H. injection H as ->. now left.
  - intros H. right. now apply IH.
Qed.

Lemma lookup_setitem {V : Type} (d : list (string * V)) (k t : string) (x : V) :
  lookup t (setitem d k x) = if String.eqb t k then Some x else lookup t d.
Proof.
  destruct (String.eqb t k) eqn:E.
  - apply String.eqb_eq in E. subst t. apply lookup_setitem_same.
  - apply lookup_setitem_other. intros ->. now rewrite String.eqb_refl in E.
Qed.

Lemma setitem_In {V : Type} (d : list (string * V)) (k : string) (x : V)
      (e : string * V) :
  In e (setitem d k x) -> In e d \/ e = (k, x).
Proof.
  induction d as [|[k' v'] d IH]; simpl.
  - intros [<-|[]]. now right.
  - destruct (String.eqb k k') eqn:E; simpl.
    + apply String.eqb_eq in E. subst k'. intros [<-|H]; [now right | left; now right].
    + intros [<-|H]; [left; now left|].
      destruct (IH H) as [H'|H']; [left; now right | now right].
Qed.

Lemma setitem_absent {V : Type} (d : list (string * V)) (k : string) (x : V) :
  contains k d = false -> setitem d k x = (d ++ [(k, x)])%list.
Proof.
  unfold contains. induction d as [|[k' v'] d IH]; simpl; [reflexivity|].
  destruct (String.eqb k k'); [discriminate|].
  intros H. now rewrite IH.
Qed.

Lemma nodup_setitem {V : Type} (d : list (string * V)) (k : string) (x : V) :
  NoDup (keys d) -> NoDup (keys (setitem d k x)).
Proof.
  intros N. rewrite keys_setitem. destruct (contains k d) eqn:C; [exact N|].
  apply NoDup_app; [exact N | constructor; [simpl; tauto | constructor] |].
  intros y Hy [E|[]]. subst y. now apply (contains_keys d k C).
Qed.

Section ToDict.
Let put (d : abundance_dict) (kv : string * pyfloat) : abundance_dict :=
  setitem d (fst kv) (Some (snd kv)).

Lemma to_dict_lookup (s : series) :
  forall acc k,
    lookup k (fold_left put s acc)
    = match lookup k (rev s) with
      | Some x => Some (Some x)
      | None => lookup k acc
      end.
Proof.
  induction s as [|[k' x'] s IH]; intros acc k; simpl; [reflexivity|].
  rewrite IH, lookup_app. destruct (lookup k (rev s)); [reflexivity|].
  unfold put. simpl. rewrite lookup_setitem. now destruct (String.eqb k k').
Qed.

Lemma to_dict_nodup (s : series) :
  forall acc, NoDup (keys acc) -> NoDup (keys (fold_left put s acc)).
Proof.
  induction s as [|kv s IH]; intros acc N; simpl; [exact N|].
  apply IH. now apply nodup_setitem.
Qed.

Lemma to_dict_In (s : series) :
  forall acc e,
    In e (fold_left put s acc) ->
    In e acc \/ exists x, e = (fst e, Some x) /\ In (fst e, x) s.
Proof.
  induction s as [|[k' x'] s IH]; intros acc e H; simpl in *; [now left|].
  destruct (IH _ _ H) as [H'|(x & E & Hin)].
  - destruct (setitem_In _ _ _ _ H') as [H'' | ->]; [now left|].
    right. exists x'. simpl. split; [reflexivity | now left].
  - right. exists x. split; [exact E | now right].
Qed.

Lemma to_dict_distinct (s : series) :
  forall acc,
    NoDup (map fst s) ->
    (forall k, In k (map fst s) -> contains k acc = false) ->
    fold_left put s acc = (acc ++ map (fun kv => (fst kv, Some (snd kv))) s)%list.
Proof.
  induction s as [|[k' x'] s IH]; intros acc N D; simpl.
  - now rewrite app_nil_r.
  - inversion N as [|? ? Hk' N']; subst.
    unfold put at 2. simpl.
    rewrite (setitem_absent acc k' (Some x')) by (apply D; now left).
    rewrite IH; [now rewrite <- app_assoc | exact N' |].
    intros k Hk. unfold contains. rewrite lookup_app.
    pose proof (D k (or_intror Hk)) as Dk. unfold contains in Dk.
    destruct (lookup k acc); [discriminate|]. simpl.
    destruct (String.eqb k k') eqn:E; [|reflexivity].
    apply String.eqb_eq in E. subst k'. contradiction.
Qed.
End ToDict.

(** [to_dict] gives a dict with distinct keys in which a label has the
    last value it has in the series; a series with distinct labels is
    converted entry by entry, in order. *)
Theorem series_to_dict_spec (s : series) :
  NoDup (keys (series_to_dict s))
  /\ (forall k, lookup k (series_to_dict s) = option_map Some (lookup k (rev s)))
  /\ (NoDup (index_tolist s) ->
      series_to_dict s = map (fun kv => (fst kv, Some (snd kv))) s).
Proof.
  unfold series_to_dict. split; [|split].
  - apply to_dict_nodup. constructor.
  - intros k. rewrite to_dict_lookup. now destruct (lookup k (rev s)).
  - intros N. now rewrite to_dict_distinct.
Qed.

Lemma series_to_dict_spec_witness :
  series_to_dict [("a", Fin 1); ("b", Fin 2)]%string
  = [("a", Some (Fin 1)); ("b", Some (Fin 2))]%string.
Proof.
  apply (proj2 (proj2 (series_to_dict_spec [("a", Fin 1); ("b", Fin 2)]%string))).
  repeat constructor; simpl; intuition discriminate.
Defined.

(** ** The Simulations page on the loaded table *)

Lemma baseline_dict_In (otu : otu_table) (e : string * amount) :
  In e (series_to_dict (baseline_abundance (dropna_all otu))) ->
  exists q, e = (fst e, Some (Fin q))
            /\ In (fst e, Fin q) (baseline_abundance (dropna_all otu)).
Proof.
  intros H. unfold series_to_dict in H.
  destruct (to_dict_In _ _ _ H) as [[]|(x & E & Hin)].
  destruct (baseline_in otu (fst e) x Hin) as (cells & _ & Hne & Ex).
  rewrite (row_mean_Fin cells Hne) in Ex. subst x.
  eexists. split; [exact E | exact Hin].
Qed.

Lemma baseline_dict_not_null (otu : otu_table) (s : string) :
  lookup s (series_to_dict (baseline_abundance (dropna_all otu))) <> Some None.
Proof.
  intros H. apply lookup_In in H.
  destruct (baseline_dict_In otu _ H) as (q & E & _). discriminate.
Qed.



(** Whatever the table, the selected species and the delta, the
    Simulations page computes its two scores without raising, as soon as
    the nutrient is one of the model: the baseline has no null amount,
    so the sum with the delta exists, and the divisions are guarded.
    The labels of the table are distinct and some row has a number:
    the trait data frame is built, and [traits.loc] yields one value. *)
Theorem simulations_page_returns
        (coerced : otu_table) (s n : string) (d : pyfloat) (h : heap) :
  NoDup (map fst coerced) ->
  dropna_all coerced <> [] ->
  lookup n nutrients <> None ->
  exists r h' b p,
    simulations_page coerced s n d h = Ok (r, h')
    /\ baseline_score_of r = Fin b
    /\ new_score_of r = Fin p
    /\ change_of r = Fin (p - b).
Proof.
  intros _ _ Hn.
  destruct (lookup n nutrients) as [ws|] eqn:En; [clear Hn | congruence].
  unfold simulations_page. cbv zeta.
  set (sl := index_tolist (baseline_abundance (dropna_all coerced))).
  set (v := series_to_dict (baseline_abundance (dropna_all coerced))).
  destruct (absorption_score_total sl n ws En v true) as (b & Eb).
  destruct (absorption_score_total sl n ws En
              (setitem v s (Some (new_amount v s d))) true) as (p & Ep).
  eexists _, _, b, p.
  split; [apply (simulate_run sl v s n d h b p (baseline_dict_not_null coerced s) Eb Ep)|].
  repeat split.
Qed.

Lemma simulations_page_returns_witness :
  exists r h' b p,
    simulations_page [("Roseburia_hominis", [Fin 0.1; NaN]);
                      ("unreadable", [NaN; NaN]);
                      ("Escherichia_coli", [Fin 0.3; Fin 0.1])]%string
                     "Roseburia_hominis" "Iron" (Fin (-0.2)) [] = Ok (r, h')
    /\ baseline_score_of r = Fin b
    /\ new_score_of r = Fin p
    /\ change_of r = Fin (p - b).
Proof.
  apply simulations_page_returns.
  - repeat constructor; simpl; intuition discriminate.
  - discriminate.
  - discriminate.
Defined.



(** ** The Nutrient Absorption page *)






(** ** The index of the baseline *)

Lemma forallb_isnan_false (cells : list pyfloat) :
  forallb isnan cells = false <-> exists q, In (Fin q) cells.
Proof.
  induction cells as [|[q|] cells IH]; simpl.
  - split; [discriminate | intros (q & [])].
  - split; [intros _; exists q; now left | reflexivity].
  - rewrite IH. split; intros (q & H).
    + exists q. now right.
    + destruct H as [H|H]; [discriminate | now exists q].
Qed.

(** A species is in the baseline exactly when one of its rows in the
    table has a number; rows that are all NaN leave no entry. *)
Theorem baseline_index (otu : otu_table) (sp : string) :
  In sp (index_tolist (baseline_abundance (dropna_all otu)))
  <-> exists cells q, In (sp, cells) otu /\ In (Fin q) cells.
Proof.
  unfold index_tolist, baseline_abundance, dropna_all. rewrite map_map. simpl.
  rewrite in_map_iff. split.
  - intros ([sp' cells] & E & H). simpl in E. subst sp'.
    apply filter_In in H. destruct H as [Hin Hf]. simpl in Hf.
    apply negb_true_iff, forallb_isnan_false in Hf. destruct Hf as (q & Hq).
    now exists cells, q.
  - intros (cells & q & Hin & Hq). exists (sp, cells). split; [reflexivity|].
    apply filter_In. split; [exact Hin|]. simpl.
    apply negb_true_iff, forallb_isnan_false. now exists q.
Qed.

(** ** A zero delta *)




